(** * LibreNMS API client: a shallow embedding of [LibreNMS.py]

    The client class [LibreNMS] wraps two HTTP calls of the LibreNMS REST
    API: [device_exists] (a GET) and [add_device] (a GET followed, when the
    device is absent and the SNMP version is acceptable, by a POST).

    The embedding keeps the shape of the Python code.  Values decoded by
    [response.json()] are the Python objects that the [json] module
    produces; Python exceptions are an error type; the [requests] library is
    a transition function on an abstract outside world, and every request
    handed to it is appended to a log, so that statements about which
    requests a method issues are statements about that log. *)

From Stdlib Require Import ZArith String Ascii List.
From Stdlib Require Import SpecFloat.
From stdpp Require Import base option list strings gmap.

Local Open Scope Z_scope.
Set Warnings "-register-all".

(** ** JSON values as Python objects *)

(** What [json.loads] returns: [None], [bool], [int], [float], [str],
    [list] and [dict] with string keys.  A Python [dict] has unique keys and
    its equality ignores insertion order, hence the finite map. *)
Inductive json : Type :=
  | JNull
  | JBool (b : bool)
  | JInt (z : Z)
  | JFloat (f : spec_float)
  | JStr (s : string)
  | JList (l : list json)
  | JObj (m : gmap string json).

(** [type(v).__name__], as it appears in the interpreter's messages. *)
Definition type_name (v : json) : string :=
  match v with
  | JNull => "NoneType"
  | JBool _ => "bool"
  | JInt _ => "int"
  | JFloat _ => "float"
  | JStr _ => "str"
  | JList _ => "list"
  | JObj _ => "dict"
  end.

(** ** Exceptions and results *)

(** The [requests.Response] object as far as the client looks at it: the
    status code, and what [response.json()] gives ([None] when the body is
    not valid JSON and decoding raises). *)
Record Response : Type := mkResponse {
  status_code : Z;
  body : option json
}.

(** The Python exceptions that can leave the two methods. *)
Inductive exn : Type :=
  | Exception (response : Response)   (* [raise Exception(response)] *)
  | ValueError (msg : string)
  | TypeError (msg : string)
  | AttributeError (msg : string)
  | JSONDecodeError                   (* raised by [response.json()] *)
  | RequestException (msg : string).  (* raised by [requests.request] *)

Inductive result (A : Type) : Type :=
  | Ok (a : A)
  | Raise (e : exn).
Arguments Ok {A} a.
Arguments Raise {A} e.

(** ** The Python operators the client applies to decoded JSON *)

(** [v.get(k)]: only a [dict] has the method; a missing key gives [None]. *)
Definition py_get (v : json) (k : string) : result json :=
  match v with
  | JObj m => Ok (default JNull (m !! k))
  | _ => Raise (AttributeError
                  ("'" +:+ type_name v +:+ "' object has no attribute 'get'"))
  end.

(** [v == s] for a [str] literal [s]. *)
Definition py_eq_str (v : json) (s : string) : bool :=
  match v with
  | JStr t => String.eqb t s
  | _ => false
  end.

(** [v > 0].  [bool] is a subclass of [int]; a [float] is compared with
    [0.0] (a NaN is not greater); every other type refuses the ordering. *)
Definition py_gt_0 (v : json) : result bool :=
  match v with
  | JBool b => Ok b
  | JInt z => Ok (0 <? z)
  | JFloat f => Ok (SFltb (S754_zero false) f)
  | _ => Raise (TypeError
                  ("'>' not supported between instances of '"
                   +:+ type_name v +:+ "' and 'int'"))
  end.

(** [x in t] for a tuple [t] of [str]. *)
Definition py_in (x : string) (t : list string) : bool :=
  existsb (String.eqb x) t.

(** [s.rstrip(chars)]: drop the longest suffix made of characters of
    [chars]. *)
Definition in_chars (a : ascii) (chars : string) : bool :=
  existsb (Ascii.eqb a) (list_ascii_of_string chars).

Fixpoint rstrip (chars s : string) : string :=
  match s with
  | EmptyString => EmptyString
  | String a t =>
      match rstrip chars t with
      | EmptyString => if in_chars a chars then EmptyString else String a EmptyString
      | r => String a r
      end
  end.

(** ** Requests *)

(** The keyword arguments of [requests.request] that the client passes;
    [req_json] is [None] when the call has no [json=] argument. *)
Record Request : Type := mkRequest {
  req_method : string;
  req_url : string;
  req_headers : gmap string string;
  req_json : option json;
  req_verify : bool
}.

(** ** The client, over an abstract outside world *)

Section Client.

(** Everything outside the process (the network, the LibreNMS server) is a
    state of type [World]; [transport] is what [requests.request] does with
    a request there: it answers with a response or raises, and leaves the
    world in a new state. *)
Variable World : Type.
Variable transport : Request -> World -> result Response * World.

(** The state threaded through the methods: the world, and the log of the
    requests handed to [requests.request] so far, oldest first. *)
Record State : Type := mkState {
  world : World;
  sent : list Request
}.

Definition M (A : Type) : Type := State -> result A * State.

Definition ret {A} (a : A) : M A := fun s => (Ok a, s).

Definition raise {A} (e : exn) : M A := fun s => (Raise e, s).

Definition bind {A B} (c : M A) (k : A -> M B) : M B :=
  fun s =>
    match c s with
    | (Ok a, s') => k a s'
    | (Raise e, s') => (Raise e, s')
    end.

Definition lift {A} (r : result A) : M A := fun s => (r, s).

Notation "'let*' x ':=' c 'in' k" := (bind c (fun x => k))
  (at level 10, x name, c at level 100, k at level 200, only parsing).

(** A block of statements that may execute [return v] ([Some v]) or reach
    its end ([None]); [block ;; rest] runs [rest] only in the second case. *)
Definition return_ {A} (v : A) : M (option A) := ret (Some v).
Definition pass {A} : M (option A) := ret None.

Definition then_ {A} (block : M (option A)) (rest : M A) : M A :=
  let* r := block in
  match r with
  | Some v => ret v
  | None => rest
  end.

Notation "block ;; rest" := (then_ block rest)
  (at level 100, rest at level 200, right associativity, only parsing).

(** [requests.request(method=, url=, headers=, json=, verify=)]. *)
Definition requests_request (method url : string) (headers : gmap string string)
    (json : option json) (verify : bool) : M Response :=
  fun s =>
    let req := mkRequest method url headers json verify in
    let '(out, w) := transport req (world s) in
    (out, mkState w (sent s ++ [req])).

(** [response.json()]. *)
Definition response_json (response : Response) : M json :=
  match body response with
  | Some v => ret v
  | None => raise JSONDecodeError
  end.

(** The instance attributes set by [__init__]. *)
Record LibreNMS : Type := mkLibreNMS {
  base_url : string;
  api_token : string;
  headers : gmap string string;
  ssl_verify : bool;
  api_verion : string
}.

Definition __init__ (base_url api_token : string) (ssl_verify : bool) : M LibreNMS :=
  let self_base_url := rstrip "/" base_url in
  let self_api_token := api_token in
  let self_headers : gmap string string :=
    {[ "X-Auth-Token" := self_api_token;
       "Content-Type" := "application/json";
       "Accept" := "application/json" ]} in
  let self_ssl_verify := ssl_verify in
  let self_api_verion := "/api/v0" in
  let self_base_url := self_base_url +:+ self_api_verion in
  ret (mkLibreNMS self_base_url self_api_token self_headers self_ssl_verify
         self_api_verion).

Definition device_exists (self : LibreNMS) (hostname : string) : M bool :=
  let url := base_url self +:+ "/devices/" +:+ hostname in
  let* response :=
    requests_request "GET" url (headers self) None (ssl_verify self) in
  (if status_code response =? 404 then
     let* result := response_json response in
     let* status := lift (py_get result "status") in
     if py_eq_str status "error" then return_ false else pass
   else pass) ;;
  (if status_code response =? 200 then
     let* result := response_json response in
     let* count := lift (py_get result "count") in
     let* positive := lift (py_gt_0 count) in
     if positive then return_ true else pass
   else pass) ;;
  raise (Exception response).

Definition add_device (self : LibreNMS) (hostname community snmp_version : string)
    : M json :=
  let* exists_ := device_exists self hostname in
  if exists_ then
    ret (JObj {[ "status" := JStr "error";
                 "message" := JStr ("Device with hostname '" +:+ hostname
                                    +:+ "' already exists") ]})
  else
    let snmp_version := if String.eqb snmp_version "1" then "v1" else snmp_version in
    let snmp_version := if String.eqb snmp_version "2" then "v2c" else snmp_version in
    let snmp_version := if String.eqb snmp_version "3" then "v3" else snmp_version in
    if negb (py_in snmp_version ["v1"; "v2c"; "v3"]) then
      raise (ValueError "SNMP version isn't correct")
    else
      let url := base_url self +:+ "/devices" in
      let payload : gmap string json :=
        {[ "hostname" := JStr hostname;
           "community" := JStr community;
           "version" := JStr snmp_version ]} in
      let* response :=
        requests_request "POST" url (headers self) (Some (JObj payload))
          (ssl_verify self) in
      response_json response.

End Client.

Arguments mkState {World} world sent.
Arguments world {World} s.
Arguments sent {World} s.
Arguments ret {World A} a s.
Arguments raise {World A} e s.
Arguments __init__ {World} base_url api_token ssl_verify s.
Arguments device_exists {World} transport self hostname s.
Arguments add_device {World} transport self hostname community snmp_version s.

(** [snmp_version: str = "v2c"]: the call without the third argument. *)
Definition add_device_default {World} transport (self : LibreNMS)
    (hostname community : string) : M World json :=
  add_device transport self hostname community "v2c".

(** ** A scripted server, for running the client on concrete exchanges *)

(** The world is the list of outcomes still to be played, one per request;
    when it is used up the connection fails. *)
Definition scripted (req : Request) (w : list (result Response))
    : result Response * list (result Response) :=
  match w with
  | [] => (Raise (RequestException "connection refused"), [])
  | out :: w' => (out, w')
  end.

Definition start (w : list (result Response)) : State (list (result Response)) :=
  mkState w [].

(** The client of the scenarios: [LibreNMS("http://nms/", "tok")]. *)
Definition nms : LibreNMS :=
  mkLibreNMS "http://nms/api/v0" "tok"
    {[ "X-Auth-Token" := "tok";
       "Content-Type" := "application/json";
       "Accept" := "application/json" ]}
    true "/api/v0".

Definition found (n : Z) : result Response :=
  Ok (mkResponse 200 (Some (JObj {[ "count" := JInt n ]}))).

Definition not_found : result Response :=
  Ok (mkResponse 404 (Some (JObj {[ "status" := JStr "error" ]}))).

(** A 200 whose JSON object is empty, and a 500 whose JSON body is [[]]. *)
Definition no_count : Response := mkResponse 200 (Some (JObj ∅)).

Definition server_error : Response := mkResponse 500 (Some (JList [])).

(** ** The shapes of responses and requests that the statements speak of *)

(** A JSON number greater than zero. *)
Inductive greater_than_zero : json -> Prop :=
  | gt0_int z : 0 < z -> greater_than_zero (JInt z)
  | gt0_float f : SFltb (S754_zero false) f = true -> greater_than_zero (JFloat f).

(** A JSON number (or boolean, which Python orders as 0 and 1) that is not
    greater than zero. *)
Inductive not_greater_than_zero : json -> Prop :=
  | le0_int z : z <= 0 -> not_greater_than_zero (JInt z)
  | le0_float f : SFltb (S754_zero false) f = false -> not_greater_than_zero (JFloat f)
  | le0_false : not_greater_than_zero (JBool false).

(** Status 200 with a [count] field greater than 0. *)
Definition is_found (r : Response) : Prop :=
  status_code r = 200 /\
  exists m count,
    body r = Some (JObj m) /\ m !! "count" = Some count /\ greater_than_zero count.

(** Status 404 with a [status] field equal to ["error"]. *)
Definition is_absent (r : Response) : Prop :=
  status_code r = 404 /\
  exists m, body r = Some (JObj m) /\ m !! "status" = Some (JStr "error").

(** The request of [device_exists] and the request of [add_device]. *)
Definition get_request (self : LibreNMS) (hostname : string) : Request :=
  mkRequest "GET" (base_url self +:+ "/devices/" +:+ hostname) (headers self)
    None (ssl_verify self).

Definition post_request (self : LibreNMS) (hostname community version : string)
    : Request :=
  mkRequest "POST" (base_url self +:+ "/devices") (headers self)
    (Some (JObj {[ "hostname" := JStr hostname;
                   "community" := JStr community;
                   "version" := JStr version ]}))
    (ssl_verify self).

(** The mapping that [add_device] returns for a device that exists. *)
Definition already_exists (hostname : string) : json :=
  JObj {[ "status" := JStr "error";
          "message" := JStr ("Device with hostname '" +:+ hostname
                             +:+ "' already exists") ]}.

(** The responses that [device_exists] answers with [Exception(response)]:
    a status other than 200 and 404; a 404 whose JSON object has no
    [status] field equal to ["error"]; a 200 whose JSON object has a
    numeric [count] that is not greater than 0. *)
Inductive unexpected (r : Response) : Prop :=
  | other_status :
      status_code r <> 200 -> status_code r <> 404 -> unexpected r
  | no_error_status m :
      status_code r = 404 -> body r = Some (JObj m) ->
      m !! "status" <> Some (JStr "error") -> unexpected r
  | no_positive_count m count :
      status_code r = 200 -> body r = Some (JObj m) ->
      m !! "count" = Some count -> not_greater_than_zero count -> unexpected r.

(** The SNMP versions that [add_device] accepts, with the literal it puts
    in the payload for each. *)
Inductive snmp_normal : string -> string -> Prop :=
  | snmp_1 : snmp_normal "1" "v1"
  | snmp_2 : snmp_normal "2" "v2c"
  | snmp_3 : snmp_normal "3" "v3"
  | snmp_v1 : snmp_normal "v1" "v1"
  | snmp_v2c : snmp_normal "v2c" "v2c"
  | snmp_v3 : snmp_normal "v3" "v3".

Definition snmp_accepted : list string := ["1"; "2"; "3"; "v1"; "v2c"; "v3"].

(** A run of [n] slashes. *)
Fixpoint slashes (n : nat) : string :=
  match n with
  | O => EmptyString
  | S k => String "/" (slashes k)
  end.

(** The header set that the constructor builds for token [tok]. *)
Definition fixed_headers (tok : string) : gmap string string :=
  {[ "X-Auth-Token" := tok;
     "Content-Type" := "application/json";
     "Accept" := "application/json" ]}.

(** A [count] for which [count > 0] holds in Python: a number greater
    than zero, or [True], which is ordered as 1. *)
Definition counts_as_found (v : json) : Prop :=
  greater_than_zero v \/ v = JBool true.

(** The types that have the method [get], and the types that Python orders
    against an [int]. *)
Definition is_dict (v : json) : bool :=
  match v with
  | JObj _ => true
  | _ => false
  end.

Definition orderable (v : json) : bool :=
  match v with
  | JBool _ | JInt _ | JFloat _ => true
  | _ => false
  end.

(** The literals that [add_device] lets into a payload. *)
Definition snmp_literals : list string := ["v1"; "v2c"; "v3"].

(** The scenarios of the test plan, run against the scripted server. *)
Example scenario_host1_exists :
  device_exists scripted nms "host1" (start [found 2])
  = (Ok true, mkState [] [get_request nms "host1"]).
Proof. vm_compute. reflexivity. Qed.

Example scenario_host2_absent :
  device_exists scripted nms "host2" (start [not_found])
  = (Ok false, mkState [] [get_request nms "host2"]).
Proof. vm_compute. reflexivity. Qed.

Example scenario_host3_added :
  let created := JObj {[ "status" := JStr "ok"; "message" := JStr "added" ]} in
  add_device scripted nms "host3" "public" "2"
    (start [not_found; Ok (mkResponse 201 (Some created))])
  = (Ok created,
     mkState [] [get_request nms "host3"; post_request nms "host3" "public" "v2c"]).
Proof. vm_compute. reflexivity. Qed.

Example scenario_host1_duplicate :
  add_device_default scripted nms "host1" "public" (start [found 2])
  = (Ok (already_exists "host1"), mkState [] [get_request nms "host1"]).
Proof. vm_compute. reflexivity. Qed.

Example scenario_construction :
  __init__ "http://nms/" "tok" true (start []) = (Ok nms, start []).
Proof. vm_compute. reflexivity. Qed.

(** ** Facts about [rstrip] *)

Lemma in_chars_slash (a : ascii) : in_chars a "/" = true <-> a = "/"%char.
Proof.
  unfold in_chars. simpl. rewrite orb_false_r. apply Ascii.eqb_eq.
Qed.

Lemma append_nil_l (s : string) : EmptyString +:+ s = s.
Proof. reflexivity. Qed.

Lemma append_cons (a : ascii) (s t : string) :
  String a s +:+ t = String a (s +:+ t).
Proof. reflexivity. Qed.

Lemma append_slash_nonempty (t : string) : t +:+ "/" <> EmptyString.
Proof. destruct t; discriminate. Qed.

Lemma rstrip_slashes (s : string) :
  exists n, s = rstrip "/" s +:+ slashes n.
Proof.
  induction s as [|a t [n IH]].
  - exists O. reflexivity.
  - simpl. destruct (rstrip "/" t) as [|b r] eqn:Ht.
    + rewrite append_nil_l in IH. destruct (in_chars a "/") eqn:Ha.
      * apply in_chars_slash in Ha. subst a.
        exists (S n). rewrite append_nil_l. simpl. congruence.
      * exists n. rewrite append_cons, append_nil_l. congruence.
    + exists n. rewrite append_cons. congruence.
Qed.

Lemma rstrip_no_trailing_slash (s t : string) : rstrip "/" s <> t +:+ "/".
Proof.
  revert t. induction s as [|a s IH]; intros t; simpl.
  - intros H. symmetry in H. now apply append_slash_nonempty in H.
  - destruct (rstrip "/" s) as [|b r] eqn:Hs.
    + destruct (in_chars a "/") eqn:Ha.
      * intros H. symmetry in H. now apply append_slash_nonempty in H.
      * destruct t as [|x t].
        -- rewrite append_nil_l. intros H. injection H as Hx. subst a.
           now rewrite (proj2 (in_chars_slash "/"%char)) in Ha.
        -- rewrite append_cons. intros H. injection H as Hx Ht.
           symmetry in Ht. now apply append_slash_nonempty in Ht.
    + destruct t as [|x t].
      * rewrite append_nil_l. discriminate.
      * rewrite append_cons. intros H. injection H as Hx Ht.
        now apply (IH t).
Qed.

(** ** Facts about [device_exists] *)

Section ClientFacts.

Variable World : Type.
Variable transport : Request -> World -> result Response * World.

(** Unfold the monad and the control-flow combinators down to the
    transition function. *)
Ltac run :=
  unfold add_device_default, add_device, device_exists, then_, bind,
    requests_request, response_json, lift, return_, pass, ret, raise;
  unfold get_request, post_request in *.

(** Split on what the code branches on. *)
Ltac branch :=
  repeat (cbv beta iota;
    match goal with
    | |- context [status_code ?r =? ?n] => destruct (status_code r =? n) eqn:?
    | |- context [body ?r] => destruct (body r) eqn:?
    | |- context [py_get ?v ?k] => destruct (py_get v k) eqn:?
    | |- context [py_eq_str ?v ?k] => destruct (py_eq_str v k) eqn:?
    | |- context [py_gt_0 ?v] => destruct (py_gt_0 v) as [[|]|] eqn:?
    end).

(** Whatever the outcome, [device_exists] hands exactly one request to the
    transport, its GET, and leaves the world as that request left it. *)
Lemma device_exists_state (self : LibreNMS) (hostname : string) (s : State World) :
  snd (device_exists transport self hostname s)
  = mkState (snd (transport (get_request self hostname) (world s)))
      (sent s ++ [get_request self hostname]).
Proof.
  run. destruct (transport _ _) as [[response|e] w]; [|reflexivity].
  branch; reflexivity.
Qed.

Lemma device_exists_sent (self : LibreNMS) (hostname : string) (s : State World) :
  sent (snd (device_exists transport self hostname s))
  = sent s ++ [get_request self hostname].
Proof. now rewrite device_exists_state. Qed.

(** X15. When the transport raises on the GET, [device_exists] raises the
    same exception, the request having been logged: nothing is caught. *)
Lemma device_exists_transport_error (self : LibreNMS) (hostname : string)
    (s : State World) (e : exn) (w : World) :
  transport (get_request self hostname) (world s) = (Raise e, w) ->
  device_exists transport self hostname s
  = (Raise e, mkState w (sent s ++ [get_request self hostname])).
Proof. intros H. run. now rewrite H. Qed.

(** C1. Whenever the GET of [device_exists] is answered with status 200 and
    a JSON object whose [count] field is greater than 0, the method returns
    [True]. *)
Theorem device_exists_found (self : LibreNMS) (hostname : string)
    (s : State World) (response : Response) (w : World) :
  transport (get_request self hostname) (world s) = (Ok response, w) ->
  is_found response ->
  device_exists transport self hostname s
  = (Ok true, mkState w (sent s ++ [get_request self hostname])).
Proof.
  intros Ht [Hst (m & count & Hbody & Hcount & Hpos)].
  run. rewrite Ht, Hst, Hbody. cbn. rewrite Hcount. cbn.
  destruct Hpos as [z Hz|f Hf]; cbn.
  - apply Z.ltb_lt in Hz. now rewrite Hz.
  - now rewrite Hf.
Qed.

(** C2. Whenever the GET of [device_exists] is answered with status 404 and
    a JSON object whose [status] field equals ["error"], the method returns
    [False]. *)
Theorem device_exists_absent (self : LibreNMS) (hostname : string)
    (s : State World) (response : Response) (w : World) :
  transport (get_request self hostname) (world s) = (Ok response, w) ->
  is_absent response ->
  device_exists transport self hostname s
  = (Ok false, mkState w (sent s ++ [get_request self hostname])).
Proof.
  intros Ht [Hst (m & Hbody & Hstatus)].
  run. rewrite Ht, Hst, Hbody. cbn. now rewrite Hstatus.
Qed.

Lemma py_eq_str_true (v : json) (t : string) :
  py_eq_str v t = true <-> v = JStr t.
Proof.
  destruct v; cbn; try (split; [discriminate | intros [=]]).
  rewrite String.eqb_eq. split; [now intros -> | now intros [=]].
Qed.

Lemma py_gt_0_not_greater (v : json) :
  not_greater_than_zero v -> py_gt_0 v = Ok false.
Proof.
  intros [z Hz|f Hf|]; cbn; [|now rewrite Hf|reflexivity].
  apply Z.ltb_ge in Hz. now rewrite Hz.
Qed.

(** X16. When the GET of [device_exists] is answered with a
    status other than 200 and 404, or with a 404 and a JSON object whose
    [status] field is not ["error"], or with a 200 and a JSON object whose
    [count] is a number not greater than 0 (so also a count of 0), the
    method raises [Exception(response)], carrying that very response; it
    does not return [False]. *)
Theorem device_exists_unexpected (self : LibreNMS) (hostname : string)
    (s : State World) (response : Response) (w : World) :
  transport (get_request self hostname) (world s) = (Ok response, w) ->
  unexpected response ->
  device_exists transport self hostname s
  = (Raise (Exception response),
     mkState w (sent s ++ [get_request self hostname])).
Proof.
  intros Ht Hu. run. rewrite Ht.
  destruct Hu as [H200 H404|m H404 Hbody Hstatus|m count H200 Hbody Hcount Hle].
  - apply Z.eqb_neq in H200, H404. now rewrite H200, H404.
  - rewrite H404, Hbody. cbn.
    destruct (py_eq_str (default JNull (m !! "status")) "error") eqn:He;
      [|reflexivity].
    apply py_eq_str_true in He. exfalso. apply Hstatus.
    destruct (m !! "status"); cbn in He; [now subst|discriminate].
  - rewrite H200, Hbody. cbn. rewrite Hcount. cbn.
    now rewrite (py_gt_0_not_greater _ Hle).
Qed.

(** C9. Whenever the GET of [device_exists] is answered with status 200 and
    a JSON object that has no [count] field, the method raises the
    [TypeError] of the comparison [None > 0], and not
    [Exception(response)]. *)
Theorem device_exists_missing_count (self : LibreNMS) (hostname : string)
    (s : State World) (response : Response) (w : World) (m : gmap string json) :
  transport (get_request self hostname) (world s) = (Ok response, w) ->
  status_code response = 200 ->
  body response = Some (JObj m) ->
  m !! "count" = None ->
  device_exists transport self hostname s
  = (Raise (TypeError
              "'>' not supported between instances of 'NoneType' and 'int'"),
     mkState w (sent s ++ [get_request self hostname]))
  /\ fst (device_exists transport self hostname s) <> Raise (Exception response).
Proof.
  intros Ht Hst Hbody Hcount.
  assert (device_exists transport self hostname s
          = (Raise (TypeError
                      "'>' not supported between instances of 'NoneType' and 'int'"),
             mkState w (sent s ++ [get_request self hostname]))) as Hrun.
  { run. rewrite Ht, Hst, Hbody. cbn. now rewrite Hcount. }
  split; [exact Hrun|]. rewrite Hrun. discriminate.
Qed.

(** ** Facts about [add_device] *)

Lemma snmp_accepted_normal (version : string) :
  version ∈ snmp_accepted -> exists v, snmp_normal version v.
Proof.
  unfold snmp_accepted. rewrite !elem_of_cons, elem_of_nil.
  intros [->|[->|[->|[->|[->|[->|[]]]]]]]; eexists; constructor.
Qed.

Lemma snmp_normal_accepted (version v : string) :
  snmp_normal version v -> version ∈ snmp_accepted.
Proof.
  intros []; unfold snmp_accepted; rewrite !elem_of_cons; tauto.
Qed.

(** Device absent, version accepted: the POST is issued with the
    normalized version and its outcome decides the result. *)
Lemma add_device_absent_accepted (self : LibreNMS)
    (hostname community version v : string) (s s' : State World) :
  device_exists transport self hostname s = (Ok false, s') ->
  snmp_normal version v ->
  add_device transport self hostname community version s
  = let req := post_request self hostname community v in
    let '(out, w) := transport req (world s') in
    let s'' := mkState w (sent s' ++ [req]) in
    match out with
    | Ok response =>
        match body response with
        | Some j => (Ok j, s'')
        | None => (Raise JSONDecodeError, s'')
        end
    | Raise e => (Raise e, s'')
    end.
Proof.
  intros Hde Hn. unfold add_device, bind. rewrite Hde.
  destruct Hn; cbn; unfold requests_request, response_json, post_request;
    destruct (transport _ _) as [[response|e] w]; try reflexivity;
    destruct (body response); reflexivity.
Qed.

(** Device absent, version not accepted: [ValueError], in the state that
    the existence check left. *)
Lemma add_device_absent_rejected (self : LibreNMS)
    (hostname community version : string) (s s' : State World) :
  device_exists transport self hostname s = (Ok false, s') ->
  version ∉ snmp_accepted ->
  add_device transport self hostname community version s
  = (Raise (ValueError "SNMP version isn't correct"), s').
Proof.
  intros Hde Hv. unfold add_device, bind. rewrite Hde.
  unfold snmp_accepted in Hv. rewrite !not_elem_of_cons in Hv.
  destruct Hv as (H1 & H2 & H3 & Hv1 & Hv2 & Hv3 & _).
  apply String.eqb_neq in H1, H2, H3, Hv1, Hv2, Hv3.
  cbv beta iota zeta. rewrite H1, H2, H3. unfold py_in. cbn [existsb].
  now rewrite Hv1, Hv2, Hv3.
Qed.

(** The requests that one call of [add_device] logs: the GET of the
    existence check, then at most the POST. *)
Lemma add_device_requests (self : LibreNMS) (hostname community version : string)
    (s : State World) :
  exists extra,
    sent (snd (add_device transport self hostname community version s))
    = sent s ++ get_request self hostname :: extra
    /\ (extra = []
        \/ exists v, snmp_normal version v
                     /\ extra = [post_request self hostname community v]).
Proof.
  destruct (device_exists transport self hostname s) as [r s'] eqn:Hde.
  assert (sent s' = sent s ++ [get_request self hostname]) as Hs'.
  { rewrite <- device_exists_sent. now rewrite Hde. }
  destruct r as [[|]|e].
  - exists []. unfold add_device, bind. rewrite Hde. cbn. auto.
  - destruct (decide (version ∈ snmp_accepted)) as [Hin|Hout].
    + destruct (snmp_accepted_normal _ Hin) as [v Hv].
      exists [post_request self hostname community v].
      rewrite (add_device_absent_accepted _ _ community _ _ _ _ Hde Hv).
      split; [|eauto]. cbv zeta.
      destruct (transport _ _) as [[response|e] w];
        [destruct (body response)| ]; cbn; rewrite Hs'; now rewrite <- app_assoc.
    + exists []. rewrite (add_device_absent_rejected _ _ community _ _ _ Hde Hout).
      cbn. auto.
  - exists []. unfold add_device, bind. rewrite Hde. cbn. auto.
Qed.

(** C3. Whenever the existence check of [add_device] returns [True], the
    method returns (it does not raise) the mapping with [status] ["error"]
    and [message] ["Device with hostname '<hostname>' already exists"], and
    the only request it has issued is the GET of the check: no POST. *)
Theorem add_device_existing (self : LibreNMS) (hostname community version : string)
    (s s' : State World) :
  device_exists transport self hostname s = (Ok true, s') ->
  add_device transport self hostname community version s
  = (Ok (JObj {[ "status" := JStr "error";
                 "message" := JStr ("Device with hostname '" +:+ hostname
                                    +:+ "' already exists") ]}), s')
  /\ sent s' = sent s ++ [get_request self hostname]
  /\ req_method (get_request self hostname) = "GET".
Proof.
  intros Hde. split; [|split; [|reflexivity]].
  - unfold add_device, bind. now rewrite Hde.
  - rewrite <- device_exists_sent. now rewrite Hde.
Qed.

(** C4. Whenever the existence check of [add_device] returns [False] and
    the SNMP version is accepted, the method hands one more request to the
    transport, in the world that the check left: a POST to
    [<base_url>/devices] whose JSON payload is exactly [hostname],
    [community] and [version], the version being the normalized one: ["v1"],
    ["v2c"], ["v3"] for the inputs ["1"], ["2"], ["3"], and the input itself
    when it is already one of these three.  What the transport does with
    that request is the outcome of the call. *)
Theorem add_device_payload (self : LibreNMS) (hostname community version v : string)
    (s s' : State World) :
  device_exists transport self hostname s = (Ok false, s') ->
  snmp_normal version v ->
  let req :=
    mkRequest "POST" (base_url self +:+ "/devices") (headers self)
      (Some (JObj {[ "hostname" := JStr hostname;
                     "community" := JStr community;
                     "version" := JStr v ]}))
      (ssl_verify self) in
  add_device transport self hostname community version s
  = (match fst (transport req (world s')) with
     | Ok response =>
         match body response with
         | Some j => Ok j
         | None => Raise JSONDecodeError
         end
     | Raise e => Raise e
     end,
     mkState (snd (transport req (world s'))) (sent s' ++ [req])).
Proof.
  intros Hde Hv req.
  rewrite (add_device_absent_accepted _ _ community _ _ _ _ Hde Hv). cbv zeta.
  fold (post_request self hostname community v). subst req.
  fold (post_request self hostname community v).
  destruct (transport _ _) as [[response|e] w]; cbn [fst snd];
    [destruct (body response)| ]; reflexivity.
Qed.

(** C6 (as amended). Whenever the SNMP version given to [add_device] is
    none of ["1"], ["2"], ["3"], ["v1"], ["v2c"], ["v3"], the only request
    the method issues is the GET of the existence check, so no POST; and
    when that check returns [False], the method raises
    [ValueError("SNMP version isn't correct")]. *)
Theorem add_device_rejected_version (self : LibreNMS)
    (hostname community version : string) (s : State World) :
  version ∉ snmp_accepted ->
  sent (snd (add_device transport self hostname community version s))
  = sent s ++ [get_request self hostname]
  /\ forall s',
       device_exists transport self hostname s = (Ok false, s') ->
       add_device transport self hostname community version s
       = (Raise (ValueError "SNMP version isn't correct"), s').
Proof.
  intros Hv. split.
  - destruct (add_device_requests self hostname community version s)
      as (extra & -> & [->|(v & Hn & _)]); [reflexivity|].
    now apply snmp_normal_accepted in Hn.
  - intros s' Hde. now apply add_device_absent_rejected.
Qed.

(** C8. Whenever [add_device] reaches its POST (the existence check
    returned [False] and the version is accepted) and the POST is answered,
    the method returns the decoded JSON body of that answer as it is,
    whatever the status code of the answer. *)
Theorem add_device_returns_body (self : LibreNMS)
    (hostname community version v : string) (s s' : State World)
    (response : Response) (w : World) (j : json) :
  device_exists transport self hostname s = (Ok false, s') ->
  snmp_normal version v ->
  transport (post_request self hostname community v) (world s') = (Ok response, w) ->
  body response = Some j ->
  add_device transport self hostname community version s
  = (Ok j, mkState w (sent s' ++ [post_request self hostname community v])).
Proof.
  intros Hde Hv Ht Hbody.
  rewrite (add_device_absent_accepted _ _ community _ _ _ _ Hde Hv). cbv zeta.
  now rewrite Ht, Hbody.
Qed.

(** C10. Whenever the existence check of [add_device] raises, the method
    raises the same exception, whatever the SNMP version (an unacceptable
    one included: the version is not looked at), and the only request it
    has issued is the GET of the check: no POST. *)
Theorem add_device_check_raises (self : LibreNMS)
    (hostname community version : string) (s s' : State World) (e : exn) :
  device_exists transport self hostname s = (Raise e, s') ->
  add_device transport self hostname community version s = (Raise e, s')
  /\ sent s' = sent s ++ [get_request self hostname].
Proof.
  intros Hde. split.
  - unfold add_device, bind. now rewrite Hde.
  - rewrite <- device_exists_sent. now rewrite Hde.
Qed.

(** C7. For every base URL and token, the constructor touches neither the
    world nor the request log, and the client it builds has: as base URL,
    the given one without its trailing slashes followed by ["/api/v0"],
    once; as headers, [X-Auth-Token] with the token and [Content-Type] and
    [Accept] with ["application/json"].  Every request that the two methods
    issue afterwards goes to that base URL with those headers. *)
Theorem init_effective_base_url (url tok : string) (verify : bool)
    (s : State World) :
  exists (stripped : string) (n : nat) (self : LibreNMS),
    url = stripped +:+ slashes n
    /\ (forall t, stripped <> t +:+ "/")
    /\ __init__ url tok verify s = (Ok self, s)
    /\ base_url self = stripped +:+ "/api/v0"
    /\ headers self = {[ "X-Auth-Token" := tok;
                         "Content-Type" := "application/json";
                         "Accept" := "application/json" ]}
    /\ (forall hostname s1,
          sent (snd (device_exists transport self hostname s1))
          = sent s1 ++
              [mkRequest "GET" ((stripped +:+ "/api/v0") +:+ "/devices/" +:+ hostname)
                 (fixed_headers tok) None verify])
    /\ (forall hostname community version s1 req,
          req ∈ drop (length (sent s1))
                  (sent (snd (add_device transport self hostname community version s1))) ->
          req_headers req = fixed_headers tok
          /\ req_verify req = verify
          /\ (req_url req = (stripped +:+ "/api/v0") +:+ "/devices/" +:+ hostname
              \/ req_url req = (stripped +:+ "/api/v0") +:+ "/devices")).
Proof.
  destruct (rstrip_slashes url) as [n Hn].
  exists (rstrip "/" url), n,
    (mkLibreNMS (rstrip "/" url +:+ "/api/v0") tok (fixed_headers tok) verify
       "/api/v0").
  split; [exact Hn|]. split; [apply rstrip_no_trailing_slash|].
  split; [reflexivity|]. split; [reflexivity|]. split; [reflexivity|]. split.
  - intros hostname s1. now rewrite device_exists_sent.
  - intros hostname community version s1 req.
    destruct (add_device_requests
                (mkLibreNMS (rstrip "/" url +:+ "/api/v0") tok (fixed_headers tok)
                   verify "/api/v0")
                hostname community version s1) as (extra & -> & Hextra).
    rewrite drop_app_length.
    destruct Hextra as [->|(v & _ & ->)];
      rewrite ?elem_of_cons, elem_of_nil; intros Hreq;
      repeat destruct Hreq as [->|Hreq]; try contradiction; cbn; auto.
Qed.

End ClientFacts.

(** ** The theorems at work on the scripted server *)

Lemma v9_not_accepted : "v9" ∉ snmp_accepted.
Proof.
  unfold snmp_accepted. rewrite !not_elem_of_cons.
  repeat split; try discriminate. apply not_elem_of_nil.
Qed.

Lemma device_exists_found_witness :
  is_found (mkResponse 200 (Some (JObj {[ "count" := JInt 2 ]})))
  /\ device_exists scripted nms "host1" (start [found 2])
     = (Ok true, mkState [] ([] ++ [get_request nms "host1"])).
Proof.
  assert (is_found (mkResponse 200 (Some (JObj {[ "count" := JInt 2 ]})))) as Hf.
  { split; [reflexivity|]. eexists _, _.
    split; [reflexivity|]. split; [vm_compute; reflexivity|]. constructor. lia. }
  split; [exact Hf|].
  apply (device_exists_found _ scripted nms "host1" (start [found 2])
           (mkResponse 200 (Some (JObj {[ "count" := JInt 2 ]}))) []);
    [reflexivity | exact Hf].
Defined.

Lemma device_exists_absent_witness :
  is_absent (mkResponse 404 (Some (JObj {[ "status" := JStr "error" ]})))
  /\ device_exists scripted nms "host2" (start [not_found])
     = (Ok false, mkState [] ([] ++ [get_request nms "host2"])).
Proof.
  assert (is_absent (mkResponse 404 (Some (JObj {[ "status" := JStr "error" ]}))))
    as Ha.
  { split; [reflexivity|]. eexists. split; [reflexivity|]. vm_compute. reflexivity. }
  split; [exact Ha|].
  apply (device_exists_absent _ scripted nms "host2" (start [not_found])
           (mkResponse 404 (Some (JObj {[ "status" := JStr "error" ]}))) []);
    [reflexivity | exact Ha].
Defined.

Lemma device_exists_unexpected_witness :
  unexpected (mkResponse 200 (Some (JObj {[ "count" := JInt 0 ]})))
  /\ device_exists scripted nms "host1" (start [found 0])
     = (Raise (Exception (mkResponse 200 (Some (JObj {[ "count" := JInt 0 ]})))),
        mkState [] ([] ++ [get_request nms "host1"])).
Proof.
  assert (unexpected (mkResponse 200 (Some (JObj {[ "count" := JInt 0 ]})))) as Hu.
  { apply (no_positive_count _ {[ "count" := JInt 0 ]} (JInt 0));
      [reflexivity | reflexivity | vm_compute; reflexivity | constructor; lia]. }
  split; [exact Hu|].
  apply (device_exists_unexpected _ scripted nms "host1" (start [found 0])
           (mkResponse 200 (Some (JObj {[ "count" := JInt 0 ]}))) []);
    [reflexivity | exact Hu].
Defined.

(** C5. The claim fails on the code at a 200 whose JSON object has no
    [count] field: that answer is neither of the two handled shapes, yet
    the method raises the [TypeError] of [None > 0] and not
    [Exception(response)].  The sibling branch does what the claim says:
    a 404 with the same empty object falls through to
    [Exception(response)]. *)
Lemma device_exists_missing_count_slip :
  ~ is_found no_count
  /\ ~ is_absent no_count
  /\ device_exists scripted nms "host1" (start [Ok no_count])
     = (Raise (TypeError
                 "'>' not supported between instances of 'NoneType' and 'int'"),
        mkState [] [get_request nms "host1"])
  /\ device_exists scripted nms "host1" (start [Ok (mkResponse 404 (Some (JObj ∅)))])
     = (Raise (Exception (mkResponse 404 (Some (JObj ∅)))),
        mkState [] [get_request nms "host1"]).
Proof.
  split; [|split; [|split]].
  - intros [_ (m & count & Hbody & Hcount & _)].
    injection Hbody as <-. rewrite lookup_empty in Hcount. discriminate.
  - intros [Hst _]. discriminate.
  - vm_compute. reflexivity.
  - vm_compute. reflexivity.
Qed.

Lemma device_exists_missing_count_witness :
  device_exists scripted nms "host1" (start [Ok no_count])
  = (Raise (TypeError
              "'>' not supported between instances of 'NoneType' and 'int'"),
     mkState [] ([] ++ [get_request nms "host1"]))
  /\ fst (device_exists scripted nms "host1" (start [Ok no_count]))
     <> Raise (Exception no_count).
Proof.
  apply (device_exists_missing_count _ scripted nms "host1" (start [Ok no_count])
           no_count [] ∅); reflexivity.
Defined.

Lemma add_device_existing_witness :
  add_device scripted nms "host1" "public" "v2c" (start [found 2])
  = (Ok (JObj {[ "status" := JStr "error";
                 "message" := JStr "Device with hostname 'host1' already exists" ]}),
     mkState [] [get_request nms "host1"])
  /\ [get_request nms "host1"] = [] ++ [get_request nms "host1"]
  /\ req_method (get_request nms "host1") = "GET".
Proof.
  apply (add_device_existing _ scripted nms "host1" "public" "v2c"
           (start [found 2]) (mkState [] [get_request nms "host1"])).
  vm_compute. reflexivity.
Defined.

Lemma add_device_payload_witness :
  add_device scripted nms "host3" "public" "2" (start [not_found; Ok server_error])
  = (Ok (JList []),
     mkState []
       ([get_request nms "host3"] ++
        [mkRequest "POST" "http://nms/api/v0/devices" (headers nms)
           (Some (JObj {[ "hostname" := JStr "host3";
                          "community" := JStr "public";
                          "version" := JStr "v2c" ]}))
           true])).
Proof.
  apply (add_device_payload _ scripted nms "host3" "public" "2" "v2c"
           (start [not_found; Ok server_error])
           (mkState [Ok server_error] [get_request nms "host3"])).
  - vm_compute. reflexivity.
  - constructor.
Defined.

Lemma add_device_rejected_version_witness :
  sent (snd (add_device scripted nms "host3" "public" "v9" (start [not_found])))
  = [] ++ [get_request nms "host3"]
  /\ add_device scripted nms "host3" "public" "v9" (start [not_found])
     = (Raise (ValueError "SNMP version isn't correct"),
        mkState [] [get_request nms "host3"]).
Proof.
  destruct (add_device_rejected_version _ scripted nms "host3" "public" "v9"
              (start [not_found])) as [Hsent Hraise].
  - unfold snmp_accepted. rewrite !not_elem_of_cons.
    repeat split; try discriminate. apply not_elem_of_nil.
  - split; [exact Hsent|]. apply Hraise. vm_compute. reflexivity.
Defined.

(** C6, as the claim states it, fails: with a version outside the accepted
    ones and a device that exists, [add_device] has issued the GET of the
    existence check and returns the "already exists" mapping; it raises
    nothing. *)
Lemma add_device_rejected_version_counterexample :
  ("v9" ∉ snmp_accepted)
  /\ add_device scripted nms "host1" "public" "v9" (start [found 1])
     = (Ok (already_exists "host1"), mkState [] [get_request nms "host1"])
  /\ fst (add_device scripted nms "host1" "public" "v9" (start [found 1]))
     <> Raise (ValueError "SNMP version isn't correct").
Proof.
  split; [exact v9_not_accepted|]. split.
  - vm_compute. reflexivity.
  - vm_compute. discriminate.
Qed.

Lemma add_device_returns_body_witness :
  add_device scripted nms "host3" "public" "v3" (start [not_found; Ok server_error])
  = (Ok (JList []),
     mkState [] ([get_request nms "host3"]
                 ++ [post_request nms "host3" "public" "v3"])).
Proof.
  apply (add_device_returns_body _ scripted nms "host3" "public" "v3" "v3"
           (start [not_found; Ok server_error])
           (mkState [Ok server_error] [get_request nms "host3"])
           server_error [] (JList [])).
  - vm_compute. reflexivity.
  - constructor.
  - reflexivity.
  - reflexivity.
Defined.

Lemma add_device_check_raises_witness :
  add_device scripted nms "host3" "public" "v9" (start [])
  = (Raise (RequestException "connection refused"),
     mkState [] [get_request nms "host3"])
  /\ [get_request nms "host3"] = [] ++ [get_request nms "host3"].
Proof.
  apply (add_device_check_raises _ scripted nms "host3" "public" "v9"
           (start []) (mkState [] [get_request nms "host3"])).
  vm_compute. reflexivity.
Defined.

(** ** Further facts: the other ways out of [device_exists] *)

Section ClientMore.

Variable World : Type.
Variable transport : Request -> World -> result Response * World.

Ltac run :=
  unfold add_device, device_exists, then_, bind, requests_request,
    response_json, lift, return_, pass, ret, raise;
  unfold get_request, post_request in *.

Lemma py_get_dict (m : gmap string json) (k : string) (v : json) :
  m !! k = Some v -> py_get (JObj m) k = Ok v.
Proof. intros H. cbn. now rewrite H. Qed.

Lemma py_get_not_dict (v : json) (k : string) :
  is_dict v = false ->
  py_get v k
  = Raise (AttributeError ("'" +:+ type_name v +:+ "' object has no attribute 'get'")).
Proof. destruct v; (discriminate || reflexivity). Qed.

Lemma py_gt_0_unordered (v : json) :
  orderable v = false ->
  py_gt_0 v
  = Raise (TypeError ("'>' not supported between instances of '"
                      +:+ type_name v +:+ "' and 'int'")).
Proof. destruct v; (discriminate || reflexivity). Qed.

Lemma py_gt_0_true (v : json) : py_gt_0 v = Ok true <-> counts_as_found v.
Proof.
  split.
  - destruct v as [|b|z|f|t|l|m]; cbn; intros H; try discriminate;
      injection H as H.
    + right. now subst b.
    + left. constructor. now apply Z.ltb_lt.
    + left. now constructor.
  - intros [[z Hz|f Hf]| ->]; cbn; [|now rewrite Hf|reflexivity].
    apply Z.ltb_lt in Hz. now rewrite Hz.
Qed.

(** X1. A 200 or a 404 whose body is not valid JSON: the decoding error of
    [response.json()] leaves [device_exists], not [Exception(response)]. *)
Theorem device_exists_decode_error (self : LibreNMS) (hostname : string)
    (s : State World) (response : Response) (w : World) :
  transport (get_request self hostname) (world s) = (Ok response, w) ->
  status_code response = 200 \/ status_code response = 404 ->
  body response = None ->
  device_exists transport self hostname s
  = (Raise JSONDecodeError, mkState w (sent s ++ [get_request self hostname])).
Proof.
  intros Ht Hst Hbody. run. rewrite Ht.
  destruct Hst as [Hst|Hst]; rewrite Hst, Hbody; reflexivity.
Qed.

(** X2. A 200 or a 404 whose JSON body is not an object (a list, a string,
    a number, [null]): [device_exists] raises the [AttributeError] of the
    missing method [get], naming the type of the body. *)
Theorem device_exists_not_object (self : LibreNMS) (hostname : string)
    (s : State World) (response : Response) (w : World) (v : json) :
  transport (get_request self hostname) (world s) = (Ok response, w) ->
  status_code response = 200 \/ status_code response = 404 ->
  body response = Some v ->
  is_dict v = false ->
  device_exists transport self hostname s
  = (Raise (AttributeError
              ("'" +:+ type_name v +:+ "' object has no attribute 'get'")),
     mkState w (sent s ++ [get_request self hostname])).
Proof.
  intros Ht Hst Hbody Hv. run. rewrite Ht.
  destruct Hst as [Hst|Hst]; rewrite Hst, Hbody; cbv beta iota;
    change (200 =? 404) with false; change (404 =? 404) with true;
    change (200 =? 200) with true; cbv beta iota;
    rewrite (py_get_not_dict _ _ Hv); reflexivity.
Qed.

(** X3. A 200 whose JSON object has a [count] that is present but is
    neither a number nor a boolean (a string, a list, an object, [null]):
    [device_exists] raises the [TypeError] of the comparison, naming the
    type of the count. *)
Theorem device_exists_unordered_count (self : LibreNMS) (hostname : string)
    (s : State World) (response : Response) (w : World)
    (m : gmap string json) (count : json) :
  transport (get_request self hostname) (world s) = (Ok response, w) ->
  status_code response = 200 ->
  body response = Some (JObj m) ->
  m !! "count" = Some count ->
  orderable count = false ->
  device_exists transport self hostname s
  = (Raise (TypeError ("'>' not supported between instances of '"
                       +:+ type_name count +:+ "' and 'int'")),
     mkState w (sent s ++ [get_request self hostname])).
Proof.
  intros Ht Hst Hbody Hcount Hord. run. rewrite Ht, Hst, Hbody.
  change (200 =? 404) with false. change (200 =? 200) with true.
  cbv beta iota. rewrite (py_get_dict _ _ _ Hcount). cbv beta iota.
  rewrite (py_gt_0_unordered _ Hord). reflexivity.
Qed.

Lemma py_get_ok (v : json) (k : string) (x : json) :
  py_get v k = Ok x -> exists m, v = JObj m /\ default JNull (m !! k) = x.
Proof.
  destruct v; cbn; intros H; try discriminate. injection H as H. eauto.
Qed.

(** X4. When the GET is answered, [device_exists] returns [True] exactly
    when the answer is a 200 whose JSON object has a [count] that is a
    number greater than 0 or is [true]; nothing else makes it return
    [True]. *)
Theorem device_exists_true_iff (self : LibreNMS) (hostname : string)
    (s : State World) (response : Response) (w : World) :
  transport (get_request self hostname) (world s) = (Ok response, w) ->
  fst (device_exists transport self hostname s) = Ok true
  <-> status_code response = 200
      /\ exists m count,
           body response = Some (JObj m) /\ m !! "count" = Some count
           /\ counts_as_found count.
Proof.
  intros Ht. run. rewrite Ht. cbv beta iota. split.
  - destruct (Z.eqb_spec (status_code response) 404) as [E404|N404];
      destruct (Z.eqb_spec (status_code response) 200) as [E200|N200];
      try lia; destruct (body response) as [v|]; cbv beta iota;
      try (intros; discriminate).
    + destruct (py_get v "status") as [st|e]; cbv beta iota;
        [destruct (py_eq_str st "error")|]; intros; discriminate.
    + destruct (py_get v "count") as [c|e] eqn:Hg; cbv beta iota;
        [|intros; discriminate].
      destruct (py_gt_0 c) as [[|]|e] eqn:Hp; cbv beta iota;
        try (intros; discriminate).
      intros _. split; [exact E200|].
      apply py_get_ok in Hg as (m & -> & Hc). exists m, c.
      split; [reflexivity|]. split; [|now apply py_gt_0_true].
      destruct (m !! "count"); cbn in Hc; subst; [reflexivity|discriminate].
  - intros (Hst & m & count & Hbody & Hcount & Hfound).
    rewrite Hst, Hbody. change (200 =? 404) with false.
    change (200 =? 200) with true. cbv beta iota.
    rewrite (py_get_dict _ _ _ Hcount). cbv beta iota.
    now rewrite (proj2 (py_gt_0_true _) Hfound).
Qed.

(** X5. When the GET is answered, [device_exists] returns [False] exactly
    when the answer is a 404 whose JSON object has [status] equal to
    ["error"]; in particular it never returns [False] for a 200. *)
Theorem device_exists_false_iff (self : LibreNMS) (hostname : string)
    (s : State World) (response : Response) (w : World) :
  transport (get_request self hostname) (world s) = (Ok response, w) ->
  fst (device_exists transport self hostname s) = Ok false
  <-> is_absent response.
Proof.
  intros Ht. unfold is_absent. run. rewrite Ht. cbv beta iota. split.
  - destruct (Z.eqb_spec (status_code response) 404) as [E404|N404];
      destruct (Z.eqb_spec (status_code response) 200) as [E200|N200];
      try lia; destruct (body response) as [v|]; cbv beta iota;
      try (intros; discriminate).
    + destruct (py_get v "status") as [st|e] eqn:Hg; cbv beta iota;
        [|intros; discriminate].
      destruct (py_eq_str st "error") eqn:He; cbv beta iota;
        [|intros; discriminate].
      intros _. split; [exact E404|].
      apply py_get_ok in Hg as (m & -> & Hst). exists m.
      split; [reflexivity|].
      destruct st; cbn in He; try discriminate.
      apply String.eqb_eq in He. subst.
      destruct (m !! "status"); cbn in Hst; subst; [reflexivity|discriminate].
    + destruct (py_get v "count") as [c|e]; cbv beta iota;
        [|intros; discriminate].
      destruct (py_gt_0 c) as [[|]|e]; cbv beta iota; intros; discriminate.
  - intros (Hst & m & Hbody & Hstatus).
    rewrite Hst, Hbody. change (404 =? 404) with true. cbv beta iota.
    rewrite (py_get_dict _ _ _ Hstatus). reflexivity.
Qed.

(** X6. Whatever comes back, and whether it returns or raises,
    [device_exists] hands exactly one request to the transport: a GET to
    [<base_url>/devices/<hostname>] with the client's headers and TLS flag
    and no JSON payload. *)
Theorem device_exists_one_request (self : LibreNMS) (hostname : string)
    (s : State World) :
  exists req,
    sent (snd (device_exists transport self hostname s)) = sent s ++ [req]
    /\ world (snd (device_exists transport self hostname s))
       = snd (transport req (world s))
    /\ req_method req = "GET"
    /\ req_url req = base_url self +:+ "/devices/" +:+ hostname
    /\ req_headers req = headers self
    /\ req_json req = None
    /\ req_verify req = ssl_verify self.
Proof.
  exists (get_request self hostname).
  rewrite (device_exists_state World transport). cbn. auto 10.
Qed.

(** ** Further facts: the requests and results of [add_device] *)

Lemma snmp_normal_literal (version v : string) :
  snmp_normal version v -> v ∈ snmp_literals /\ snmp_normal v v.
Proof.
  intros []; (split; [|constructor]); unfold snmp_literals;
    rewrite !elem_of_cons; tauto.
Qed.

(** A POST is among the requests of a call exactly when the check
    returned [False] and the version is accepted. *)
Lemma add_device_posts (self : LibreNMS) (hostname community version : string)
    (s : State World) :
  (exists req,
     req ∈ drop (length (sent s))
             (sent (snd (add_device transport self hostname community version s)))
     /\ req_method req = "POST")
  <-> fst (device_exists transport self hostname s) = Ok false
      /\ version ∈ snmp_accepted.
Proof.
  destruct (device_exists transport self hostname s) as [r s'] eqn:Hde.
  assert (sent s' = sent s ++ [get_request self hostname]) as Hs'.
  { rewrite <- (device_exists_sent World transport). now rewrite Hde. }
  assert (forall s2 : State World, sent s2 = sent s' ->
            ~ exists req, req ∈ drop (length (sent s)) (sent s2)
                          /\ req_method req = "POST") as Hnone.
  { intros s2 -> (req & Hin & Hm). rewrite Hs', drop_app_length in Hin.
    apply list_elem_of_singleton in Hin. subst req. discriminate. }
  cbn [fst]. destruct r as [[|]|e].
  - split; [|intros [[=] _]]. intros H. exfalso. apply (Hnone s'); [reflexivity|].
    unfold add_device, bind in H. now rewrite Hde in H.
  - destruct (decide (version ∈ snmp_accepted)) as [Hin|Hout].
    + split; [auto|]. intros _.
      destruct (snmp_accepted_normal _ Hin) as [v Hv].
      exists (post_request self hostname community v).
      split; [|reflexivity].
      rewrite (add_device_absent_accepted World transport _ _ community _ _ _ _ Hde Hv).
      cbv zeta.
      assert (post_request self hostname community v
              ∈ drop (length (sent s))
                  (sent s' ++ [post_request self hostname community v])) as Hpost.
      { rewrite Hs', <- app_assoc, drop_app_length. cbn.
        rewrite !elem_of_cons. auto. }
      destruct (transport _ _) as [[response|e] w];
        [destruct (body response)| ]; exact Hpost.
    + split; [|intros [_ H]; contradiction]. intros H. exfalso.
      apply (Hnone s'); [reflexivity|].
      now rewrite (add_device_absent_rejected World transport _ _ community _ _ _
                     Hde Hout) in H.
  - split; [|intros [[=] _]]. intros H. exfalso. apply (Hnone s'); [reflexivity|].
    unfold add_device, bind in H. now rewrite Hde in H.
Qed.

(** The whole log of a call, in the two cases. *)
Lemma add_device_log (self : LibreNMS) (hostname community version : string)
    (s : State World) :
  (fst (device_exists transport self hostname s) = Ok false
   /\ version ∈ snmp_accepted ->
   exists v,
     snmp_normal version v
     /\ sent (snd (add_device transport self hostname community version s))
        = sent s ++ [get_request self hostname;
                     post_request self hostname community v])
  /\ (~ (fst (device_exists transport self hostname s) = Ok false
         /\ version ∈ snmp_accepted) ->
      sent (snd (add_device transport self hostname community version s))
      = sent s ++ [get_request self hostname]).
Proof.
  destruct (device_exists transport self hostname s) as [r s'] eqn:Hde.
  assert (sent s' = sent s ++ [get_request self hostname]) as Hs'.
  { rewrite <- (device_exists_sent World transport). now rewrite Hde. }
  cbn [fst]. destruct r as [[|]|e].
  - split; [intros [[=] _]|]. intros _.
    unfold add_device, bind. now rewrite Hde.
  - split.
    + intros [_ Hin]. destruct (snmp_accepted_normal _ Hin) as [v Hv].
      exists v. split; [exact Hv|].
      rewrite (add_device_absent_accepted World transport _ _ community _ _ _ _
                 Hde Hv). cbv zeta.
      destruct (transport _ _) as [[response|e] w];
        [destruct (body response)| ]; cbn; rewrite Hs'; now rewrite <- app_assoc.
    + intros Hn. assert (version ∉ snmp_accepted) as Hout by (intros Hin; auto).
      now rewrite (add_device_absent_rejected World transport _ _ community _ _ _
                     Hde Hout).
  - split; [intros [[=] _]|]. intros _.
    unfold add_device, bind. now rewrite Hde.
Qed.

(** X7. [add_device] issues a POST exactly when its existence check returns
    [False] and the SNMP version is one of the six accepted; the log then
    gains the GET of the check followed by that one POST, and in every
    other case (a device that exists, a failing check, a refused version)
    it gains the GET alone. *)
Theorem add_device_post_iff (self : LibreNMS) (hostname community version : string)
    (s : State World) :
  ((exists req,
      req ∈ drop (length (sent s))
              (sent (snd (add_device transport self hostname community version s)))
      /\ req_method req = "POST")
   <-> fst (device_exists transport self hostname s) = Ok false
       /\ version ∈ snmp_accepted)
  /\ (fst (device_exists transport self hostname s) = Ok false
      /\ version ∈ snmp_accepted ->
      exists v,
        snmp_normal version v
        /\ sent (snd (add_device transport self hostname community version s))
           = sent s ++ [get_request self hostname;
                        post_request self hostname community v])
  /\ (~ (fst (device_exists transport self hostname s) = Ok false
         /\ version ∈ snmp_accepted) ->
      sent (snd (add_device transport self hostname community version s))
      = sent s ++ [get_request self hostname]).
Proof.
  split; [apply add_device_posts | apply add_device_log].
Qed.

(** X8. Every POST that [add_device] issues carries the payload
    [hostname], [community], [version] with a version among ["v1"],
    ["v2c"], ["v3"]: the aliases ["1"], ["2"], ["3"] never reach the
    server. *)
Theorem add_device_post_literal (self : LibreNMS)
    (hostname community version : string) (s : State World) (req : Request) :
  req ∈ drop (length (sent s))
          (sent (snd (add_device transport self hostname community version s))) ->
  req_method req = "POST" ->
  exists v, v ∈ snmp_literals /\ req = post_request self hostname community v.
Proof.
  destruct (add_device_requests World transport self hostname community version s)
    as (extra & -> & Hextra).
  rewrite drop_app_length. intros Hin Hm.
  apply elem_of_cons in Hin as [->|Hin]; [discriminate|].
  destruct Hextra as [->|(v & Hv & ->)].
  - now apply elem_of_nil in Hin.
  - apply list_elem_of_singleton in Hin. subst req.
    exists v. split; [|reflexivity]. now apply snmp_normal_literal in Hv.
Qed.

(** X9. The aliases are indistinguishable from the literals they stand
    for: a call with ["1"], ["2"] or ["3"] does, in every state, exactly
    what the call with ["v1"], ["v2c"] or ["v3"] does. *)
Theorem add_device_alias (self : LibreNMS) (hostname community version v : string)
    (s : State World) :
  snmp_normal version v ->
  add_device transport self hostname community version s
  = add_device transport self hostname community v s.
Proof.
  intros Hv. destruct (device_exists transport self hostname s) as [r s'] eqn:Hde.
  destruct r as [[|]|e].
  - unfold add_device, bind. now rewrite Hde.
  - rewrite (add_device_absent_accepted World transport _ _ community _ _ _ _ Hde Hv).
    apply snmp_normal_literal in Hv as [_ Hv].
    now rewrite (add_device_absent_accepted World transport _ _ community _ _ _ _
                   Hde Hv).
  - unfold add_device, bind. now rewrite Hde.
Qed.

(** X10. When the POST is answered with a body that is not valid JSON,
    [add_device] raises the decoding error whatever the status code, a
    success status included, after both requests have been issued. *)
Theorem add_device_post_decode_error (self : LibreNMS)
    (hostname community version v : string) (s s' : State World)
    (response : Response) (w : World) :
  device_exists transport self hostname s = (Ok false, s') ->
  snmp_normal version v ->
  transport (post_request self hostname community v) (world s') = (Ok response, w) ->
  body response = None ->
  add_device transport self hostname community version s
  = (Raise JSONDecodeError,
     mkState w (sent s ++ [get_request self hostname;
                           post_request self hostname community v])).
Proof.
  intros Hde Hv Ht Hbody.
  rewrite (add_device_absent_accepted World transport _ _ community _ _ _ _ Hde Hv).
  cbv zeta. rewrite Ht, Hbody. do 2 f_equal.
  assert (sent s' = sent s ++ [get_request self hostname]) as ->.
  { rewrite <- (device_exists_sent World transport). now rewrite Hde. }
  now rewrite <- app_assoc.
Qed.

(** X11. When the transport raises on the POST, [add_device] raises the
    same exception: nothing is caught and nothing is retried, the log
    holds the GET and the one POST. *)
Theorem add_device_post_transport_error (self : LibreNMS)
    (hostname community version v : string) (s s' : State World)
    (e : exn) (w : World) :
  device_exists transport self hostname s = (Ok false, s') ->
  snmp_normal version v ->
  transport (post_request self hostname community v) (world s') = (Raise e, w) ->
  add_device transport self hostname community version s
  = (Raise e,
     mkState w (sent s ++ [get_request self hostname;
                           post_request self hostname community v])).
Proof.
  intros Hde Hv Ht.
  rewrite (add_device_absent_accepted World transport _ _ community _ _ _ _ Hde Hv).
  cbv zeta. rewrite Ht. do 2 f_equal.
  assert (sent s' = sent s ++ [get_request self hostname]) as ->.
  { rewrite <- (device_exists_sent World transport). now rewrite Hde. }
  now rewrite <- app_assoc.
Qed.

(** X12. A normal return of [add_device] has one of two origins: the
    device exists and the value is the "already exists" mapping, built
    locally; or the check returned [False], the version was accepted, and
    the value is the decoded body of the answer to the POST. *)
Theorem add_device_ok_inv (self : LibreNMS) (hostname community version : string)
    (s s2 : State World) (j : json) :
  add_device transport self hostname community version s = (Ok j, s2) ->
  (device_exists transport self hostname s = (Ok true, s2)
   /\ j = already_exists hostname)
  \/ (exists s1 v response,
        device_exists transport self hostname s = (Ok false, s1)
        /\ snmp_normal version v
        /\ transport (post_request self hostname community v) (world s1)
           = (Ok response, world s2)
        /\ body response = Some j
        /\ sent s2 = sent s1 ++ [post_request self hostname community v]).
Proof.
  destruct (device_exists transport self hostname s) as [r s1] eqn:Hde.
  destruct r as [[|]|e].
  - unfold add_device, bind. rewrite Hde. intros [= <- <-]. now left.
  - destruct (decide (version ∈ snmp_accepted)) as [Hin|Hout].
    + destruct (snmp_accepted_normal _ Hin) as [v Hv].
      rewrite (add_device_absent_accepted World transport _ _ community _ _ _ _
                 Hde Hv). cbv zeta.
      destruct (transport _ _) as [[response|e] w] eqn:Ht;
        [destruct (body response) as [j'|] eqn:Hbody|]; intros [= <- <-].
      right. exists s1, v, response. auto.
    + rewrite (add_device_absent_rejected World transport _ _ community _ _ _
                 Hde Hout). discriminate.
  - unfold add_device, bind. rewrite Hde. discriminate.
Qed.

End ClientMore.

(** ** Further facts: the constructor and trailing slashes *)

Lemma rstrip_only_slashes (n : nat) : rstrip "/" (slashes n) = EmptyString.
Proof. induction n as [|n IH]; [reflexivity|]. cbn. now rewrite IH. Qed.

Lemma rstrip_app_slashes (s : string) (n : nat) :
  rstrip "/" (s +:+ slashes n) = rstrip "/" s.
Proof.
  induction s as [|a s IH].
  - rewrite append_nil_l. apply rstrip_only_slashes.
  - rewrite append_cons. cbn. now rewrite IH.
Qed.

Lemma rstrip_last_kept (s : string) (c : ascii) :
  c <> "/"%char -> rstrip "/" (s +:+ String c "") = s +:+ String c "".
Proof.
  intros Hc. induction s as [|a s IH].
  - rewrite append_nil_l. cbn. rewrite orb_false_r.
    apply Ascii.eqb_neq in Hc. now rewrite Hc.
  - rewrite append_cons. cbn. rewrite IH.
    destruct s; reflexivity.
Qed.

(** X13. The number of slashes at the end of the base URL makes no
    difference: adding any run of slashes to the URL gives the same
    client. *)
Theorem init_trailing_slashes (World : Type) (url tok : string) (verify : bool)
    (n : nat) (s : State World) :
  __init__ (url +:+ slashes n) tok verify s = __init__ url tok verify s.
Proof. unfold __init__. now rewrite rstrip_app_slashes. Qed.

(** X14. A base URL whose last character is not a slash is kept whole:
    the effective base URL is that URL followed by ["/api/v0"]. *)
Theorem init_last_kept (World : Type) (url tok : string) (c : ascii)
    (verify : bool) (s : State World) :
  c <> "/"%char ->
  __init__ (url +:+ String c "") tok verify s
  = (Ok (mkLibreNMS ((url +:+ String c "") +:+ "/api/v0") tok (fixed_headers tok)
           verify "/api/v0"), s).
Proof. intros Hc. unfold __init__. now rewrite (rstrip_last_kept _ _ Hc). Qed.

(** ** The further facts at work on the scripted server *)

Lemma device_exists_transport_error_witness :
  device_exists scripted nms "host1" (start [])
  = (Raise (RequestException "connection refused"),
     mkState [] ([] ++ [get_request nms "host1"])).
Proof.
  apply (device_exists_transport_error _ scripted nms "host1" (start [])
           (RequestException "connection refused") []).
  reflexivity.
Defined.

Lemma device_exists_decode_error_witness :
  device_exists scripted nms "host1" (start [Ok (mkResponse 200 None)])
  = (Raise JSONDecodeError, mkState [] ([] ++ [get_request nms "host1"])).
Proof.
  apply (device_exists_decode_error _ scripted nms "host1"
           (start [Ok (mkResponse 200 None)]) (mkResponse 200 None) []).
  - reflexivity.
  - left. reflexivity.
  - reflexivity.
Defined.

Lemma device_exists_not_object_witness :
  device_exists scripted nms "host1" (start [Ok (mkResponse 404 (Some (JList [])))])
  = (Raise (AttributeError "'list' object has no attribute 'get'"),
     mkState [] ([] ++ [get_request nms "host1"])).
Proof.
  apply (device_exists_not_object _ scripted nms "host1"
           (start [Ok (mkResponse 404 (Some (JList [])))])
           (mkResponse 404 (Some (JList []))) [] (JList [])).
  - reflexivity.
  - right. reflexivity.
  - reflexivity.
  - reflexivity.
Defined.

Lemma device_exists_unordered_count_witness :
  device_exists scripted nms "host1"
    (start [Ok (mkResponse 200 (Some (JObj {[ "count" := JStr "2" ]})))])
  = (Raise (TypeError "'>' not supported between instances of 'str' and 'int'"),
     mkState [] ([] ++ [get_request nms "host1"])).
Proof.
  apply (device_exists_unordered_count _ scripted nms "host1"
           (start [Ok (mkResponse 200 (Some (JObj {[ "count" := JStr "2" ]})))])
           (mkResponse 200 (Some (JObj {[ "count" := JStr "2" ]}))) []
           {[ "count" := JStr "2" ]} (JStr "2")).
  - reflexivity.
  - reflexivity.
  - reflexivity.
  - vm_compute. reflexivity.
  - reflexivity.
Defined.

Lemma device_exists_true_iff_witness :
  fst (device_exists scripted nms "host1"
         (start [Ok (mkResponse 200 (Some (JObj {[ "count" := JBool true ]})))]))
  = Ok true.
Proof.
  apply (device_exists_true_iff _ scripted nms "host1"
           (start [Ok (mkResponse 200 (Some (JObj {[ "count" := JBool true ]})))])
           (mkResponse 200 (Some (JObj {[ "count" := JBool true ]}))) []).
  - reflexivity.
  - split; [reflexivity|]. exists {[ "count" := JBool true ]}, (JBool true).
    split; [reflexivity|]. split; [vm_compute; reflexivity|]. right. reflexivity.
Defined.

Lemma device_exists_false_iff_witness :
  is_absent (mkResponse 404 (Some (JObj {[ "status" := JStr "error" ]}))).
Proof.
  apply (device_exists_false_iff _ scripted nms "host2" (start [not_found])
           (mkResponse 404 (Some (JObj {[ "status" := JStr "error" ]}))) []).
  - reflexivity.
  - vm_compute. reflexivity.
Defined.

Lemma add_device_post_literal_witness :
  exists v,
    v ∈ snmp_literals
    /\ post_request nms "host3" "public" "v2c" = post_request nms "host3" "public" v.
Proof.
  apply (add_device_post_literal _ scripted nms "host3" "public" "2"
           (start [not_found; Ok server_error])).
  - assert (drop (length (sent (start [not_found; Ok server_error])))
              (sent (snd (add_device scripted nms "host3" "public" "2"
                            (start [not_found; Ok server_error]))))
            = [get_request nms "host3"; post_request nms "host3" "public" "v2c"])
      as ->.
    { vm_compute. reflexivity. }
    rewrite !elem_of_cons. auto.
  - reflexivity.
Defined.

Lemma add_device_alias_witness :
  add_device scripted nms "host3" "public" "2" (start [not_found; Ok server_error])
  = add_device scripted nms "host3" "public" "v2c"
      (start [not_found; Ok server_error]).
Proof.
  apply (add_device_alias _ scripted nms "host3" "public" "2" "v2c"
           (start [not_found; Ok server_error])).
  constructor.
Defined.

Lemma add_device_post_decode_error_witness :
  add_device scripted nms "host3" "public" "v1"
    (start [not_found; Ok (mkResponse 201 None)])
  = (Raise JSONDecodeError,
     mkState [] ([] ++ [get_request nms "host3";
                        post_request nms "host3" "public" "v1"])).
Proof.
  apply (add_device_post_decode_error _ scripted nms "host3" "public" "v1" "v1"
           (start [not_found; Ok (mkResponse 201 None)])
           (mkState [Ok (mkResponse 201 None)] [get_request nms "host3"])
           (mkResponse 201 None) []).
  - vm_compute. reflexivity.
  - constructor.
  - reflexivity.
  - reflexivity.
Defined.

Lemma add_device_post_transport_error_witness :
  add_device scripted nms "host3" "public" "3" (start [not_found])
  = (Raise (RequestException "connection refused"),
     mkState [] ([] ++ [get_request nms "host3";
                        post_request nms "host3" "public" "v3"])).
Proof.
  apply (add_device_post_transport_error _ scripted nms "host3" "public" "3" "v3"
           (start [not_found]) (mkState [] [get_request nms "host3"])
           (RequestException "connection refused") []).
  - vm_compute. reflexivity.
  - constructor.
  - reflexivity.
Defined.

Lemma add_device_ok_inv_witness :
  (device_exists scripted nms "host1" (start [found 2])
   = (Ok true, mkState [] [get_request nms "host1"])
   /\ already_exists "host1" = already_exists "host1")
  \/ (exists s1 v response,
        device_exists scripted nms "host1" (start [found 2]) = (Ok false, s1)
        /\ snmp_normal "v2c" v
        /\ scripted (post_request nms "host1" "public" v) (world s1)
           = (Ok response, [])
        /\ body response = Some (already_exists "host1")
        /\ [get_request nms "host1"]
           = sent s1 ++ [post_request nms "host1" "public" v]).
Proof.
  apply (add_device_ok_inv _ scripted nms "host1" "public" "v2c"
           (start [found 2]) (mkState [] [get_request nms "host1"])
           (already_exists "host1")).
  vm_compute. reflexivity.
Defined.

Lemma init_last_kept_witness :
  __init__ "http://nms" "tok" true (start []) = (Ok nms, start []).
Proof.
  apply (init_last_kept _ "http://nm" "tok" "s"%char true (start [])).
  discriminate.
Defined.
